(** * Photon map: the kd-tree dataset adapters and the photon-map queries

    A shallow embedding of [Include/PhotonMap.h]: the two dataset adapters
    [PointCloud<T>] and [PhotonMapper] that feed the kd-tree, the records
    [PhotonInfo] and [Photon], and the classes [PhotonMapper] and
    [PhotonMap]. Member functions that the header only declares
    ([mapScene], [gatherPhotons], [findNNearestPoints], the constructors of
    [Photon] and [PhotonMap]) follow the design document; each such
    definition says so.

    - C++ [float] is IEEE-754 binary32, taken from the Standard Library's
      executable specification [SpecFloat] at precision 24 and maximal
      exponent 128 (one NaN, no payload). Every operation rounds to
      binary32 on its own.
    - [std::vector<X>] is [list X]; [operator[]] is the partial lookup
      [l !! i], so an out-of-range read (undefined behaviour in C++) shows
      up as [None].
    - [size_t] and [unsigned int] values are only compared and used as
      indices or counts here, so they are [nat]; [int dim] is [Z].
    - a [const T*] argument is the array it points to, read by index. *)

From Stdlib Require Import ZArith QArith Qround Lia.
From Stdlib Require Import Floats.SpecFloat.
From Stdlib Require Import Sorting.Sorted.
From stdpp Require Import base option list sorting.

Set Default Proof Using "Type".

(** ** binary32 arithmetic *)

Definition float : Type := spec_float.

Definition f32_prec : Z := 24.
Definition f32_emax : Z := 128.

Definition fadd : float -> float -> float := SFadd f32_prec f32_emax.
Definition fsub : float -> float -> float := SFsub f32_prec f32_emax.
Definition fmul : float -> float -> float := SFmul f32_prec f32_emax.
Definition fdiv : float -> float -> float := SFdiv f32_prec f32_emax.
Definition fsqrt : float -> float := SFsqrt f32_prec f32_emax.
Definition fopp : float -> float := SFopp.
Definition fltb : float -> float -> bool := SFltb.
Definition fleb : float -> float -> bool := SFleb.

(** The binary32 value nearest to an integer (exact up to 2^24). *)
Definition f32_of_Z (n : Z) : float :=
  binary_normalize f32_prec f32_emax n 0 false.

(** The literals [0.0f] and [1.0f]. *)
Definition f32_zero : float := S754_zero false.
Definition f32_one : float := S754_finite false 8388608 (-23).

Definition is_nan (f : float) : bool :=
  match f with S754_nan => true | _ => false end.

(** Two readings of "in non-decreasing order" for neighbours [a], [b] of a
    sequence: [b] is not below [a], and [a <= b]. They differ on NaN only. *)
Definition never_decreases (a b : float) : Prop := fltb b a = false.
Definition at_most (a b : float) : Prop := fleb a b = true.

(** An order on distances, read on (index, distance) pairs. *)
Definition by_distance (R : relation float) : relation (nat * float) :=
  fun a b => R a.2 b.2.

(** ** The scalar type of the templated point cloud

    [PointCloud<T>] uses [-], [*] and [+] on [T], and initialises a [T]
    from a [float] component of a [glm::vec3]. *)

Class Scalar (T : Type) := {
  s_sub : T -> T -> T;
  s_mul : T -> T -> T;
  s_add : T -> T -> T;
  s_of_float : float -> T
}.

#[global] Instance float_Scalar : Scalar float := {|
  s_sub := fsub;
  s_mul := fmul;
  s_add := fadd;
  s_of_float := fun f => f
|}.

(** ** glm::vec3 *)

Module glm.
Record vec3 : Type := Vec3 { x : float; y : float; z : float }.
End glm.

(** ** template <typename T> struct PointCloud *)

Module PointCloud.
Section WithScalar.
Context {T : Type} `{Scalar T}.

Record Point : Type := MkPoint { x : T; y : T; z : T }.

(** [Point(glm::vec3 v) : x(v.x), y(v.y), z(v.z)] *)
Definition Point_of_vec3 (v : glm.vec3) : Point :=
  {| x := s_of_float (glm.x v);
     y := s_of_float (glm.y v);
     z := s_of_float (glm.z v) |}.

Record t : Type := Make { pts : list Point }.

Definition kdtree_get_point_count (self : t) : nat := length (pts self).

(** The third argument is the unnamed, unused [size_t /*size*/]. *)
Definition kdtree_distance (self : t) (p1 : list T) (idx_p2 : nat)
    (_ : nat) : option T :=
  a0 ← p1 !! 0%nat; q0 ← pts self !! idx_p2;
  let d0 := s_sub a0 (x q0) in
  a1 ← p1 !! 1%nat; q1 ← pts self !! idx_p2;
  let d1 := s_sub a1 (y q1) in
  a2 ← p1 !! 2%nat; q2 ← pts self !! idx_p2;
  let d2 := s_sub a2 (z q2) in
  Some (s_add (s_add (s_mul d0 d0) (s_mul d1 d1)) (s_mul d2 d2)).

Definition kdtree_get_pt (self : t) (idx : nat) (dim : Z) : option T :=
  if (dim =? 0)%Z then q ← pts self !! idx; Some (x q)
  else if (dim =? 1)%Z then q ← pts self !! idx; Some (y q)
  else q ← pts self !! idx; Some (z q).

(** [bb] is taken by reference: the result carries it back. *)
Definition kdtree_get_bbox {BBOX : Type} (self : t) (bb : BBOX)
    : bool * BBOX :=
  (false, bb).
End WithScalar.
Arguments Point : clear implicits.
Arguments t : clear implicits.
End PointCloud.

(** ** glm operations used by the gather estimate *)

Module glmops.
Definition dot (a b : glm.vec3) : float :=
  fadd (fadd (fmul (glm.x a) (glm.x b)) (fmul (glm.y a) (glm.y b)))
       (fmul (glm.z a) (glm.z b)).

Definition neg (a : glm.vec3) : glm.vec3 :=
  glm.Vec3 (fopp (glm.x a)) (fopp (glm.y a)) (fopp (glm.z a)).

Definition add (a b : glm.vec3) : glm.vec3 :=
  glm.Vec3 (fadd (glm.x a) (glm.x b)) (fadd (glm.y a) (glm.y b))
           (fadd (glm.z a) (glm.z b)).

Definition div_scalar (a : glm.vec3) (s : float) : glm.vec3 :=
  glm.Vec3 (fdiv (glm.x a) s) (fdiv (glm.y a) s) (fdiv (glm.z a) s).

Definition zero : glm.vec3 := glm.Vec3 f32_zero f32_zero f32_zero.
End glmops.

(** ** struct PhotonInfo *)

Module PhotonInfo.
Record t : Type := Make {
  color : glm.vec3;
  position : glm.vec3;
  direction : glm.vec3
}.
End PhotonInfo.

(** ** struct Photon

    [Ray] is declared in [Raytracer.h], which is not part of this unit;
    it is built from the constructor's two vectors. *)

Record Ray : Type := MkRay { ray_origin : glm.vec3; ray_direction : glm.vec3 }.

Module Photon.
Record t : Type := Make {
  beam : Ray;
  depth : nat;
  absorbed : bool;
  color : glm.vec3
}.

(** The default member initialisers [absorbed = false] and
    [color = glm::vec3(1.0f, 1.0f, 1.0f)]. *)
Definition absorbed_init : bool := false.
Definition color_init : glm.vec3 := glm.Vec3 f32_one f32_one f32_one.

(** The default argument [depth = 3]. *)
Definition default_depth : nat := 3.

(** Modelled from the spec: the body of the constructor
    [Photon(glm::vec3 o, glm::vec3 d, unsigned int depth)], which is
    defined outside the header. It builds the ray from [o] and [d] and
    stores the bounce budget; [absorbed] and [color] keep the default
    member initialisers of the struct ("color (RGB, initialized to
    full-intensity white ...)"). *)
Definition new (o d : glm.vec3) (depth : nat) : t :=
  {| beam := MkRay o d;
     depth := depth;
     absorbed := absorbed_init;
     color := color_init |}.
End Photon.

(** ** model::Scene

    Modelled from the spec: [model::Scene] is only forward-declared in the
    header. The spec asks of it "light sources (position/intensity/color)";
    the ray-intersection oracle it also offers enters the mapping pass as
    the bounce simulator below. An intensity is a non-negative magnitude,
    kept exact as a fraction [inum / iden]. *)

Module model.
Record Intensity : Type := MkIntensity { inum : N; iden : positive }.

Definition intensity_Q (i : Intensity) : Q := Z.of_N (inum i) # iden i.

Record Light : Type := MkLight {
  light_position : glm.vec3;
  light_intensity : Intensity;
  light_color : glm.vec3
}.

Record Scene : Type := MkScene { lights : list Light }.

Definition intensities (scene : Scene) : list Q :=
  intensity_Q ∘ light_intensity <$> lights scene.
End model.

(** ** Photon allocation across the lights

    Modelled from the spec: the allocation rule of [mapScene], whose body is
    defined outside the header. "For each light source, the number of photons
    allocated is proportional to that light's relative intensity among all
    lights in the scene (sources with zero or negligible intensity receive
    zero photons), so total equals photonCount (rounding policy: any
    remainder distributed deterministically, e.g. to the brightest light, to
    keep totals exact)"; "a scene with zero lights or zero total intensity
    yields zero photons". *)

Module allocation.
Definition total_intensity (ls : list Q) : Q := foldr Qplus 0%Q ls.

(** The proportional share, rounded down. *)
Definition share (N : nat) (total w : Q) : nat :=
  Z.to_nat (Qfloor (inject_Z (Z.of_nat N) * w / total)).

(** Index of the first light of maximal intensity among [ls], whose first
    element has index [i]; [best] of intensity [bestI] is the candidate
    so far. *)
Fixpoint brightest_from (best : nat) (bestI : Q) (i : nat) (ls : list Q)
    : nat :=
  match ls with
  | [] => best
  | w :: ls' =>
      if Qlt_le_dec bestI w then brightest_from i w (S i) ls'
      else brightest_from best bestI (S i) ls'
  end.

Definition brightest (ls : list Q) : nat :=
  match ls with
  | [] => 0
  | w :: ls' => brightest_from 0 w 1 ls'
  end.

Definition allocate (N : nat) (ls : list Q) : list nat :=
  let total := total_intensity ls in
  if Qlt_le_dec 0 total then
    let base := share N total <$> ls in
    let remainder := N - sum_list base in
    alter (Nat.add remainder) (brightest ls) base
  else (fun _ => 0) <$> ls.
End allocation.

(** ** class PhotonMapper *)

Module PhotonMapper.
Record t : Type := Make {
  number_of_photons : nat;
  number_of_bounces : nat;
  gathered_photons : list PhotonInfo.t;
  photons : list Photon.t
}.

Definition getDirection (self : t) (i : nat) : option glm.vec3 :=
  r ← gathered_photons self !! i; Some (PhotonInfo.direction r).

Definition getEnergy (self : t) (i : nat) : option glm.vec3 :=
  r ← gathered_photons self !! i; Some (PhotonInfo.color r).

Definition kdtree_get_point_count (self : t) : nat :=
  length (gathered_photons self).

(** The third argument is the unnamed, unused [size_t /*size*/]. *)
Definition kdtree_distance (self : t) (p1 : list float) (idx_p2 : nat)
    (_ : nat) : option float :=
  a0 ← p1 !! 0%nat; r0 ← gathered_photons self !! idx_p2;
  let d0 := fsub a0 (glm.x (PhotonInfo.position r0)) in
  a1 ← p1 !! 1%nat; r1 ← gathered_photons self !! idx_p2;
  let d1 := fsub a1 (glm.y (PhotonInfo.position r1)) in
  a2 ← p1 !! 2%nat; r2 ← gathered_photons self !! idx_p2;
  let d2 := fsub a2 (glm.z (PhotonInfo.position r2)) in
  Some (fadd (fadd (fmul d0 d0) (fmul d1 d1)) (fmul d2 d2)).

Definition kdtree_get_pt (self : t) (idx : nat) (dim : Z) : option float :=
  if (dim =? 0)%Z then r ← gathered_photons self !! idx;
                       Some (glm.x (PhotonInfo.position r))
  else if (dim =? 1)%Z then r ← gathered_photons self !! idx;
                            Some (glm.y (PhotonInfo.position r))
  else r ← gathered_photons self !! idx; Some (glm.z (PhotonInfo.position r)).

(** [bb] is taken by reference: the result carries it back. *)
Definition kdtree_get_bbox {BBOX : Type} (self : t) (bb : BBOX)
    : bool * BBOX :=
  (false, bb).

(** *** The mapping pass

    The random source and the bounce simulation over the scene's
    intersection oracle are collaborators of the mapping pass:
    [sample_direction l j] is the direction drawn for the [j]-th photon of
    light number [l], and [trace ph] is the record left by photon [ph], if
    any. *)
Section Mapping.
Variable sample_direction : nat -> nat -> glm.vec3.
Variable trace : Photon.t -> option PhotonInfo.t.

(** Modelled from the spec: emission for one light. Each photon is
    constructed at the light with a sampled direction and the mapper's
    bounce budget; "initial color is the light's color/intensity". *)
Definition emit (bounces : nat) (l : nat) (lgt : model.Light) (count : nat)
    : list Photon.t :=
  (fun j =>
     let ph := Photon.new (model.light_position lgt)
                          (sample_direction l j) bounces in
     {| Photon.beam := Photon.beam ph;
        Photon.depth := Photon.depth ph;
        Photon.absorbed := Photon.absorbed ph;
        Photon.color := model.light_color lgt |}) <$> seq 0 count.

(** The photons emitted per light, in light order. *)
Definition emission (self : t) (scene : model.Scene)
    : list (list Photon.t) :=
  let ls := model.lights scene in
  let counts :=
    allocation.allocate (number_of_photons self)
      (model.intensities scene) in
  imap (fun l '(lgt, count) => emit (number_of_bounces self) l lgt count)
       (zip ls counts).

(** Modelled from the spec: [mapScene], declared in the header ("Generate
    photons for each light source, distributed by light intensity") and
    defined outside it. The emitted photons fill [photons]; the records
    their traces leave are appended to [gathered_photons]. *)
Definition mapScene (self : t) (scene : model.Scene) : t :=
  let emitted := concat (emission self scene) in
  {| number_of_photons := number_of_photons self;
     number_of_bounces := number_of_bounces self;
     gathered_photons := gathered_photons self ++ omap trace emitted;
     photons := photons self ++ emitted |}.

(** The defaults [photon_count = 1000] and [bounces = 3]. *)
Definition default_photon_count : nat := 1000.
Definition default_bounces : nat := 3.

(** The inline constructor: it stores the two counts, reserves room in
    [photons] (no change to its contents) and runs [mapScene]. *)
Definition new (scene : model.Scene) (photon_count bounces : nat) : t :=
  mapScene {| number_of_photons := photon_count;
              number_of_bounces := bounces;
              gathered_photons := [];
              photons := [] |} scene.
End Mapping.
End PhotonMapper.

(** ** The kd-tree over a dataset adaptor

    The tree type [nanoflann::KDTreeSingleIndexAdaptor] reads its points
    through four members of the dataset class; both [PointCloud<float>] and
    [PhotonMapper] provide them. *)

Module nanoflann.
Class DatasetAdaptor (D : Type) := {
  ds_point_count : D -> nat;
  ds_distance : D -> list float -> nat -> nat -> option float;
  ds_get_pt : D -> nat -> Z -> option float;
  ds_get_bbox : forall BBOX : Type, D -> BBOX -> bool * BBOX
}.

#[global] Instance PointCloud_adaptor
    : DatasetAdaptor (PointCloud.t float) := {|
  ds_point_count := PointCloud.kdtree_get_point_count;
  ds_distance := PointCloud.kdtree_distance;
  ds_get_pt := PointCloud.kdtree_get_pt;
  ds_get_bbox := fun BBOX => PointCloud.kdtree_get_bbox
|}.

#[global] Instance PhotonMapper_adaptor
    : DatasetAdaptor PhotonMapper.t := {|
  ds_point_count := PhotonMapper.kdtree_get_point_count;
  ds_distance := PhotonMapper.kdtree_distance;
  ds_get_pt := PhotonMapper.kdtree_get_pt;
  ds_get_bbox := fun BBOX => PhotonMapper.kdtree_get_bbox
|}.

(** Modelled from the spec: the spatial index ([nanoflann.hpp] is not
    among the sources). The spec fixes its contract only: built once over
    all records; "kNearest(point, k) -> ordered sequence of (index,
    squaredDistance)", "the k closest PhotonRecords by squared Euclidean
    distance in ascending distance order. If fewer than k records exist,
    returns all available records", "ties broken by index order". The
    index is the sequence [vind] of the point indices it covers; the search
    below sorts their distances. *)
Record KDTreeSingleIndexAdaptor : Type := MkIndex { vind : list nat }.

Section Tree.
Context {D : Type} `{DatasetAdaptor D}.

(** The bounding-box step of the tree build, following the protocol the
    header documents for [kdtree_get_bbox]: "return false to default to
    a standard bbox computation loop. Return true if the BBOX was already
    computed by the class and returned in bb". The loop itself belongs
    to the tree library and is a parameter. *)
Definition computeBoundingBox {BBOX : Type}
    (standard_loop : D -> BBOX -> BBOX) (dataset : D) (bbox : BBOX)
    : BBOX :=
  let '(done, bb) := ds_get_bbox BBOX dataset bbox in
  if done then bb else standard_loop dataset bb.

(** Built once, over every point of the dataset. *)
Definition buildIndex (dataset : D) : KDTreeSingleIndexAdaptor :=
  {| vind := seq 0 (ds_point_count dataset) |}.

(** The squared distance of every indexed point to the query, in index
    order, computed by the dataset's own distance member. *)
Definition distances (index : KDTreeSingleIndexAdaptor) (dataset : D)
    (query : list float) : list (nat * float) :=
  omap (fun i => d ← ds_distance dataset query i 3; Some (i, d))
       (vind index).

(** Stable insertion by ascending distance: the new entry goes in front
    of the first entry that is at least as far. *)
Fixpoint insert_by_distance (e : nat * float) (l : list (nat * float))
    : list (nat * float) :=
  match l with
  | [] => [e]
  | e' :: l' =>
      if fleb (snd e) (snd e') then e :: e' :: l'
      else e' :: insert_by_distance e l'
  end.

Definition sort_by_distance (l : list (nat * float))
    : list (nat * float) :=
  foldr insert_by_distance [] l.

(** The [num_closest] nearest entries, nearest first. *)
Definition knnSearch (index : KDTreeSingleIndexAdaptor) (dataset : D)
    (query : list float) (num_closest : nat) : list (nat * float) :=
  take num_closest (sort_by_distance (distances index dataset query)).
End Tree.
End nanoflann.

(** ** class PhotonMap *)

Module PhotonMap.
(** [typedef ... photon_tree_t]: the tree over a [PhotonMapper]. *)
Definition photon_tree_t : Type := nanoflann.KDTreeSingleIndexAdaptor.

(** [p] is a reference to the mapper; the state of a photon map is the
    tree together with the mapper it refers to. *)
Record t : Type := Make {
  photon_map : photon_tree_t;
  p : PhotonMapper.t
}.

(** Modelled from the spec: the constructor [PhotonMap(PhotonMapper* _p)],
    defined outside the header. It keeps the reference and builds the
    index once over the complete record collection. *)
Definition new (_p : PhotonMapper.t) : t :=
  {| photon_map := nanoflann.buildIndex _p; p := _p |}.

(** Member functions are not declared [const]: they run as state
    transformers over the photon map. *)
Definition Method (A : Type) : Type := t -> A * t.

Definition ret {A : Type} (a : A) : Method A := fun self => (a, self).

Definition bind {A B : Type} (m : Method A) (f : A -> Method B)
    : Method B :=
  fun self => let '(a, self') := m self in f a self'.

Definition this : Method t := fun self => (self, self).

Definition query_of (point : glm.vec3) : list float :=
  [glm.x point; glm.y point; glm.z point].

(** The default argument [number_of_results = 5]. *)
Definition default_number_of_results : nat := 5.

(** Modelled from the spec: [findNNearestPoints], declared in the header
    ("Finds the N nearest neighbours to a given point and returns the
    indices + the squared euclidean distance to each") and defined outside
    it. The two output vectors [ret_index] and [out_dist_sqr] are the
    result. *)
Definition findNNearestPoints (point : glm.vec3) (number_of_results : nat)
    : Method (list nat * list float) :=
  bind this (fun self =>
  let found := nanoflann.knnSearch (photon_map self) (p self)
                 (query_of point) number_of_results in
  ret (found.*1, found.*2)).

(** The hemisphere test of the gather: "dot product of normal and the
    reversed incoming direction must be non-negative". *)
Definition arrives_from_front (normal incoming : glm.vec3) : bool :=
  fleb f32_zero (glmops.dot normal (glmops.neg incoming)).

(** The binary32 value nearest to pi. *)
Definition f32_pi : float := S754_finite false 13176795 (-22).

Definition fmax (a b : float) : float := if fltb a b then b else a.

Section Gather.
(** The neighbour count of a gather and the area floor are configuration
    ("clamped to a minimum area floor"). *)
Variable gather_count : nat.
Variable min_area : float.

(** Energy of the neighbours that pass the hemisphere test. *)
Definition qualifying (mapper : PhotonMapper.t) (normal : glm.vec3)
    (ret_index : list nat) : list glm.vec3 :=
  omap (fun i =>
          d ← PhotonMapper.getDirection mapper i;
          if arrives_from_front normal d
          then PhotonMapper.getEnergy mapper i else None)
       ret_index.

(** Area of the disk whose radius is the largest gathered distance,
    not below the floor. *)
Definition gather_area (out_dist_sqr : list float) : float :=
  let radius := fsqrt (foldr fmax f32_zero out_dist_sqr) in
  let area := fmul (fmul f32_pi radius) radius in
  if fltb area min_area then min_area else area.

(** Modelled from the spec: [gatherPhotons], declared in the header and
    defined outside it. "query the SpatialIndex for the k nearest
    PhotonRecords to point. Filter out ... photons whose
    incomingDirection is inconsistent with arriving from the visible
    hemisphere of normal ... sum the filtered photons' energy, divide by
    the area of the disk defined by the maximum gathered distance";
    "empty index or zero qualifying photons after filtering -> returns
    zero radiance (black), not an error"; "No side effects". *)
Definition gatherPhotons (point normal : glm.vec3) : Method glm.vec3 :=
  bind (findNNearestPoints point gather_count)
    (fun '(ret_index, out_dist_sqr) =>
  bind this (fun self =>
  match qualifying (p self) normal ret_index with
  | [] => ret glmops.zero
  | energies =>
      ret (glmops.div_scalar (foldr glmops.add glmops.zero energies)
                             (gather_area out_dist_sqr))
  end)).
End Gather.
End PhotonMap.

(** ** The gather, member call by member call

    [gatherPhotons], [getDirection] and [getEnergy] are not declared
    [const], and [PhotonMap] reaches its mapper through the reference [p].
    Here every member call is a state transformer on the object it is
    called on, and a call made through [p] leaves in the photon map
    whatever mapper the call leaves. The tree search itself reads the
    mapper through [kdtree_distance] only, which is a [const] member. *)

Module stepwise.
Definition MapperMethod (A : Type) : Type :=
  PhotonMapper.t -> A * PhotonMapper.t.

(** [getDirection] and [getEnergy] as the header defines them: one read of
    [gathered_photons[i]], no assignment. *)
Definition getDirection (i : nat) : MapperMethod (option glm.vec3) :=
  fun self => (PhotonMapper.getDirection self i, self).

Definition getEnergy (i : nat) : MapperMethod (option glm.vec3) :=
  fun self => (PhotonMapper.getEnergy self i, self).

(** A call made through the reference [p]. *)
Definition through_p {A : Type} (call : MapperMethod A)
    : PhotonMap.Method A :=
  fun self =>
    let '(a, mapper) := call (PhotonMap.p self) in
    (a, {| PhotonMap.photon_map := PhotonMap.photon_map self;
           PhotonMap.p := mapper |}).

(** The loop of the gather over the neighbours: for each index, read the
    direction, test the hemisphere, and read the energy of the photons
    that pass. *)
Fixpoint collect (normal : glm.vec3) (ret_index : list nat)
    : PhotonMap.Method (list glm.vec3) :=
  match ret_index with
  | [] => PhotonMap.ret []
  | i :: rest =>
      PhotonMap.bind (through_p (getDirection i)) (fun direction =>
      match direction with
      | Some d =>
          if PhotonMap.arrives_from_front normal d then
            PhotonMap.bind (through_p (getEnergy i)) (fun energy =>
            PhotonMap.bind (collect normal rest) (fun energies =>
            PhotonMap.ret (match energy with
                           | Some e => e :: energies
                           | None => energies
                           end)))
          else collect normal rest
      | None => collect normal rest
      end)
  end.

Section Gather.
Variable gather_count : nat.
Variable min_area : float.

(** Modelled from the spec: [gatherPhotons] as in [PhotonMap.gatherPhotons],
    with the reads of the mapper written as the member calls they are. *)
Definition gatherPhotons (point normal : glm.vec3)
    : PhotonMap.Method glm.vec3 :=
  PhotonMap.bind (PhotonMap.findNNearestPoints point gather_count)
    (fun '(ret_index, out_dist_sqr) =>
  PhotonMap.bind (collect normal ret_index) (fun energies =>
  match energies with
  | [] => PhotonMap.ret glmops.zero
  | _ =>
      PhotonMap.ret
        (glmops.div_scalar (foldr glmops.add glmops.zero energies)
           (PhotonMap.gather_area min_area out_dist_sqr))
  end)).
End Gather.

(** A member call that does write: it stores one more record, as the
    mapping pass does. *)
Definition store (r : PhotonInfo.t) : MapperMethod unit :=
  fun self =>
    (tt, {| PhotonMapper.number_of_photons :=
              PhotonMapper.number_of_photons self;
            PhotonMapper.number_of_bounces :=
              PhotonMapper.number_of_bounces self;
            PhotonMapper.gathered_photons :=
              PhotonMapper.gathered_photons self ++ [r];
            PhotonMapper.photons := PhotonMapper.photons self |}).
End stepwise.

(** ** Sample data *)

Module sample.
Definition v3 (a b c : Z) : glm.vec3 :=
  glm.Vec3 (f32_of_Z a) (f32_of_Z b) (f32_of_Z c).

(** Three stored photons: at (3,4,0) and (0,2,0) arriving downwards, at
    (1,0,0) arriving upwards. *)
Definition record0 : PhotonInfo.t :=
  PhotonInfo.Make (v3 1 1 1) (v3 3 4 0) (v3 0 0 (-1)).
Definition record1 : PhotonInfo.t :=
  PhotonInfo.Make (v3 1 0 0) (v3 1 0 0) (v3 0 0 1).
Definition record2 : PhotonInfo.t :=
  PhotonInfo.Make (v3 0 1 0) (v3 0 2 0) (v3 0 0 (-1)).

Definition mapper : PhotonMapper.t :=
  PhotonMapper.Make 3 3 [record0; record1; record2] [].

Definition cloud : PointCloud.t float :=
  PointCloud.Make
    (PointCloud.Point_of_vec3 ∘ PhotonInfo.position <$>
       PhotonMapper.gathered_photons mapper).

Definition origin : glm.vec3 := v3 0 0 0.
Definition up : glm.vec3 := v3 0 0 1.

(** Two point lights, of intensity 10 and 0. *)
Definition scene : model.Scene :=
  model.MkScene
    [ model.MkLight (v3 0 5 0) (model.MkIntensity 10 1) (v3 1 1 1);
      model.MkLight (v3 5 5 0) (model.MkIntensity 0 1) (v3 1 1 1) ].

End sample.

(** ** Classes of binary32 values *)

Definition is_finite (f : float) : bool :=
  match f with S754_zero _ | S754_finite _ _ _ => true | _ => false end.

Definition is_zero (f : float) : bool :=
  match f with S754_zero _ => true | _ => false end.

(** Strictly positive and finite. *)
Definition positive_finite (f : float) : bool :=
  match f with S754_finite false _ _ => true | _ => false end.

(** NaN, or a value whose sign bit is clear: [+0], a positive finite value
    or [+infinity]. *)
Definition sign_clear_or_nan (f : float) : bool :=
  match f with
  | S754_nan => true
  | S754_zero s | S754_infinity s | S754_finite s _ _ => negb s
  end.

Definition finite_vec3 (v : glm.vec3) : bool :=
  is_finite (glm.x v) && is_finite (glm.y v) && is_finite (glm.z v).

(** ** glm::vec2 and the difference of two glm::vec3 *)

Module glmext.
Record vec2 : Type := Vec2 { x : float; y : float }.

(** [operator-] on [glm::vec3]: the difference of each component. *)
Definition sub (a b : glm.vec3) : glm.vec3 :=
  glm.Vec3 (fsub (glm.x a) (glm.x b)) (fsub (glm.y a) (glm.y b))
           (fsub (glm.z a) (glm.z b)).
End glmext.

(** ** class Triangle ([Include/Triangle.h])

    [glm::cross], [glm::normalize] and [glm::length] are library functions
    whose rounding the header does not fix: they are parameters of the
    member functions that call them. *)

Module Triangle.
Record t : Type := Make {
  v0 : glm.vec3;
  v1 : glm.vec3;
  v2 : glm.vec3;
  normal : glm.vec3;
  color : glm.vec3;
  uv0 : glmext.vec2;
  uv1 : glmext.vec2;
  uv2 : glmext.vec2
}.

Definition e1 (self : t) : glm.vec3 := glmext.sub (v1 self) (v0 self).
Definition e2 (self : t) : glm.vec3 := glmext.sub (v2 self) (v0 self).

(** The integer literals [0] and [1] are converted to [float] for the
    comparisons. *)
Definition checkIntersection (self : t) (intersect : glm.vec3) : bool :=
  fltb f32_zero (glm.y intersect) && fltb f32_zero (glm.z intersect)
  && fltb (fadd (glm.y intersect) (glm.z intersect)) f32_one.

Section WithGlm.
Variable cross : glm.vec3 -> glm.vec3 -> glm.vec3.
Variable normalize : glm.vec3 -> glm.vec3.
Variable length : glm.vec3 -> float.

Definition ComputeNormal (self : t) : t :=
  let e1 := glmext.sub (v1 self) (v0 self) in
  let e2 := glmext.sub (v2 self) (v0 self) in
  {| v0 := v0 self; v1 := v1 self; v2 := v2 self;
     normal := normalize (cross e2 e1);
     color := color self;
     uv0 := uv0 self; uv1 := uv1 self; uv2 := uv2 self |}.

(** The constructor stores the three vertices and the colour and calls
    [ComputeNormal]. It does not mention [normal] and the texture
    coordinates in its initialiser list: [fresh] stands for what their
    default constructors leave in them. *)
Definition new (fresh : t) (v0 v1 v2 color : glm.vec3) : t :=
  ComputeNormal
    {| v0 := v0; v1 := v1; v2 := v2;
       normal := normal fresh;
       color := color;
       uv0 := uv0 fresh; uv1 := uv1 fresh; uv2 := uv2 fresh |}.

Definition calculateBarycentricCoordinates (self : t)
    (intersection_point : glm.vec3) : glm.vec3 :=
  let factorA := glmext.sub (v0 self) intersection_point in
  let factorB := glmext.sub (v1 self) intersection_point in
  let factorC := glmext.sub (v2 self) intersection_point in
  let area :=
    length (cross (glmext.sub (v0 self) (v1 self))
                  (glmext.sub (v0 self) (v2 self))) in
  {| glm.x := fdiv (length (cross factorB factorC)) area;
     glm.y := fdiv (length (cross factorC factorA)) area;
     glm.z := fdiv (length (cross factorA factorB)) area |}.
End WithGlm.
End Triangle.

(** ** struct Intersection *)

Module Intersection.
Record t : Type := Make {
  position : glm.vec3;
  distance : float;
  index : Z
}.

(** [Intersection(pos, dis, ind)] *)
Definition new (pos : glm.vec3) (dis : float) (ind : Z) : t :=
  {| position := pos; distance := dis; index := ind |}.
End Intersection.

(** ** Sample triangles *)

Module sample_triangle.
(** The usual component formulas, to run the members that take the library
    functions as parameters. *)
Definition cross (a b : glm.vec3) : glm.vec3 :=
  glm.Vec3
    (fsub (fmul (glm.y a) (glm.z b)) (fmul (glm.y b) (glm.z a)))
    (fsub (fmul (glm.z a) (glm.x b)) (fmul (glm.z b) (glm.x a)))
    (fsub (fmul (glm.x a) (glm.y b)) (fmul (glm.x b) (glm.y a))).

Definition length (a : glm.vec3) : float := fsqrt (glmops.dot a a).

Definition normalize (a : glm.vec3) : glm.vec3 :=
  glmops.div_scalar a (length a).

Definition blank : Triangle.t :=
  Triangle.Make glmops.zero glmops.zero glmops.zero glmops.zero glmops.zero
    (glmext.Vec2 f32_zero f32_zero) (glmext.Vec2 f32_zero f32_zero)
    (glmext.Vec2 f32_zero f32_zero).

(** A right triangle in the plane z = 0, and a triangle squeezed onto a
    segment. *)
Definition right : Triangle.t :=
  Triangle.new cross normalize blank
    (sample.v3 0 0 0) (sample.v3 2 0 0) (sample.v3 0 2 0) (sample.v3 1 1 1).

Definition flat : Triangle.t :=
  Triangle.new cross normalize blank
    (sample.v3 0 0 0) (sample.v3 1 0 0) (sample.v3 2 0 0) (sample.v3 1 1 1).

(** 0.25 and 0.5 *)
Definition quarter : float := S754_finite false 8388608 (-25).
Definition half : float := S754_finite false 8388608 (-24).
End sample_triangle.

(** ** A scene with three lit lights *)

Module sample_scene.

End sample_scene.

(** * Properties *)

(** ** The dataset adapters *)

Section Adapters.
Implicit Types (m : PhotonMapper.t) (idx size : nat) (dim : Z).

Lemma record_at_index m idx :
  idx < PhotonMapper.kdtree_get_point_count m ->
  exists r, PhotonMapper.gathered_photons m !! idx = Some r.
Proof.
  unfold PhotonMapper.kdtree_get_point_count. intros Hlt.
  destruct (lookup_lt_is_Some_2 _ _ Hlt) as [r Hr]. eauto.
Qed.

(** Reading at or past the point count is the out-of-range access. *)
Lemma kdtree_get_pt_out_of_range m idx dim :
  PhotonMapper.kdtree_get_point_count m <= idx ->
  PhotonMapper.kdtree_get_pt m idx dim = None.
Proof.
  unfold PhotonMapper.kdtree_get_point_count, PhotonMapper.kdtree_get_pt.
  intros Hge. rewrite (lookup_ge_None_2 _ _ Hge).
  destruct (dim =? 0)%Z, (dim =? 1)%Z; reflexivity.
Qed.

Lemma valid_index_iff m idx :
  idx < PhotonMapper.kdtree_get_point_count m <->
  is_Some (PhotonMapper.gathered_photons m !! idx).
Proof. symmetry. apply lookup_lt_is_Some. Qed.
End Adapters.

(** C2: for an index below the point count and a query triple [p],
    [kdtree_distance] is [(p0-x)^2 + (p1-y)^2 + (p2-z)^2] in binary32
    arithmetic, summed left to right, where [x], [y], [z] are what
    [kdtree_get_pt] returns for dimensions 0, 1, 2: the position of the
    stored record. *)
Theorem kdtree_distance_squared_euclidean
    (m : PhotonMapper.t) (p0 p1 p2 : float) (idx size : nat) :
  idx < PhotonMapper.kdtree_get_point_count m ->
  exists (r : PhotonInfo.t) (x y z : float),
    PhotonMapper.gathered_photons m !! idx = Some r /\
    x = glm.x (PhotonInfo.position r) /\
    y = glm.y (PhotonInfo.position r) /\
    z = glm.z (PhotonInfo.position r) /\
    PhotonMapper.kdtree_get_pt m idx 0 = Some x /\
    PhotonMapper.kdtree_get_pt m idx 1 = Some y /\
    PhotonMapper.kdtree_get_pt m idx 2 = Some z /\
    PhotonMapper.kdtree_distance m [p0; p1; p2] idx size =
      Some (fadd (fadd (fmul (fsub p0 x) (fsub p0 x))
                       (fmul (fsub p1 y) (fsub p1 y)))
                 (fmul (fsub p2 z) (fsub p2 z))).
Proof.
  intros Hlt. destruct (record_at_index m idx Hlt) as [r Hr].
  exists r, (glm.x (PhotonInfo.position r)), (glm.y (PhotonInfo.position r)),
    (glm.z (PhotonInfo.position r)).
  unfold PhotonMapper.kdtree_get_pt, PhotonMapper.kdtree_distance.
  rewrite Hr. repeat split; reflexivity.
Qed.

Lemma kdtree_distance_squared_euclidean_witness :
  0 < PhotonMapper.kdtree_get_point_count sample.mapper /\
  PhotonMapper.kdtree_distance sample.mapper
    [f32_of_Z 0; f32_of_Z 0; f32_of_Z 0] 0 3 = Some (f32_of_Z 25).
Proof.
  assert (Hlt : 0 < PhotonMapper.kdtree_get_point_count sample.mapper)
    by (vm_compute; lia).
  split; [exact Hlt|].
  destruct (kdtree_distance_squared_euclidean sample.mapper
              (f32_of_Z 0) (f32_of_Z 0) (f32_of_Z 0) 0 3 Hlt)
    as (r & x & y & z & Hr & -> & -> & -> & _ & _ & _ & ->).
  injection Hr as <-. vm_compute. reflexivity.
Defined.

(** C3: the point count is the number of records in [gathered_photons],
    also when read through the tree's dataset interface: the indices below
    it are exactly those that hold a record. *)
Theorem kdtree_get_point_count_is_record_count (m : PhotonMapper.t) :
  PhotonMapper.kdtree_get_point_count m =
    length (PhotonMapper.gathered_photons m) /\
  nanoflann.ds_point_count m = length (PhotonMapper.gathered_photons m) /\
  (forall idx : nat,
      idx < PhotonMapper.kdtree_get_point_count m ->
      is_Some (PhotonMapper.gathered_photons m !! idx)) /\
  (forall idx : nat,
      PhotonMapper.kdtree_get_point_count m <= idx ->
      PhotonMapper.gathered_photons m !! idx = None).
Proof.
  split; [reflexivity|]. split; [reflexivity|]. split.
  - intros idx Hlt. by apply valid_index_iff.
  - intros idx Hge. by apply lookup_ge_None_2.
Qed.

Lemma kdtree_get_point_count_is_record_count_witness :
  PhotonMapper.kdtree_get_point_count sample.mapper = 3 /\
  is_Some (PhotonMapper.gathered_photons sample.mapper !! 2) /\
  PhotonMapper.gathered_photons sample.mapper !! 3 = None.
Proof.
  destruct (kdtree_get_point_count_is_record_count sample.mapper)
    as (Hcount & _ & Hin & Hout).
  split; [rewrite Hcount; reflexivity|]. split.
  - apply Hin. vm_compute. lia.
  - apply Hout. vm_compute. lia.
Defined.

(** C8: [kdtree_get_bbox] answers false and leaves [bb] alone, for the
    photon mapper and for every point cloud, so the bounding-box step of
    the tree build runs the standard loop. *)
Theorem kdtree_get_bbox_always_false :
  (forall (BBOX : Type) (m : PhotonMapper.t) (bb : BBOX),
      PhotonMapper.kdtree_get_bbox m bb = (false, bb)) /\
  (forall (T BBOX : Type) (sc : Scalar T) (pc : PointCloud.t T) (bb : BBOX),
      PointCloud.kdtree_get_bbox pc bb = (false, bb)) /\
  (forall (BBOX : Type) (loop : PhotonMapper.t -> BBOX -> BBOX)
          (m : PhotonMapper.t) (bb : BBOX),
      nanoflann.computeBoundingBox loop m bb = loop m bb) /\
  (forall (BBOX : Type) (loop : PointCloud.t float -> BBOX -> BBOX)
          (pc : PointCloud.t float) (bb : BBOX),
      nanoflann.computeBoundingBox loop pc bb = loop pc bb).
Proof. repeat split. Qed.

(** C9: a [PointCloud<float>] and a [PhotonMapper] that store the same
    sequence of positions answer alike: same point count, same
    [kdtree_get_pt] at every index and dimension, same [kdtree_distance]
    for every query array and index (out-of-range reads included). *)
Theorem adapters_equivalent (pc : PointCloud.t float) (m : PhotonMapper.t) :
  PointCloud.pts pc =
    (PointCloud.Point_of_vec3 ∘ PhotonInfo.position <$>
       PhotonMapper.gathered_photons m) ->
  PointCloud.kdtree_get_point_count pc =
    PhotonMapper.kdtree_get_point_count m /\
  (forall (idx : nat) (dim : Z),
      PointCloud.kdtree_get_pt pc idx dim =
        PhotonMapper.kdtree_get_pt m idx dim) /\
  (forall (p : list float) (idx size : nat),
      PointCloud.kdtree_distance pc p idx size =
        PhotonMapper.kdtree_distance m p idx size).
Proof.
  intros Hpts. split; [|split].
  - unfold PointCloud.kdtree_get_point_count,
      PhotonMapper.kdtree_get_point_count.
    rewrite Hpts. apply length_fmap.
  - intros idx dim.
    unfold PointCloud.kdtree_get_pt, PhotonMapper.kdtree_get_pt.
    rewrite Hpts, list_lookup_fmap.
    destruct (PhotonMapper.gathered_photons m !! idx) as [r|];
      destruct (dim =? 0)%Z, (dim =? 1)%Z; reflexivity.
  - intros p idx size.
    unfold PointCloud.kdtree_distance, PhotonMapper.kdtree_distance.
    rewrite Hpts, list_lookup_fmap.
    destruct (p !! 0%nat) as [a0|]; [|reflexivity].
    destruct (PhotonMapper.gathered_photons m !! idx) as [r|];
      [|reflexivity].
    destruct (p !! 1%nat) as [a1|]; [|reflexivity].
    destruct (p !! 2%nat) as [a2|]; reflexivity.
Qed.

Lemma adapters_equivalent_witness :
  PointCloud.kdtree_get_point_count sample.cloud = 3 /\
  PointCloud.kdtree_get_pt sample.cloud 2 1 = Some (f32_of_Z 2) /\
  PointCloud.kdtree_distance sample.cloud
    [f32_of_Z 0; f32_of_Z 0; f32_of_Z 0] 0 3 = Some (f32_of_Z 25).
Proof.
  destruct (adapters_equivalent sample.cloud sample.mapper eq_refl)
    as (Hcount & Hpt & Hdist).
  rewrite Hcount, Hpt, Hdist. vm_compute. repeat split.
Defined.

(** C10: for an index below the point count, [kdtree_get_pt] is defined
    for every [dim] (its single read of [gathered_photons] is at [idx],
    which is in range) and returns [x] for 0, [y] for 1 and [z] for every
    other value, negative ones and those above 2 included. *)
Theorem kdtree_get_pt_total_on_valid_index
    (m : PhotonMapper.t) (idx : nat) (dim : Z) :
  idx < PhotonMapper.kdtree_get_point_count m ->
  exists r : PhotonInfo.t,
    PhotonMapper.gathered_photons m !! idx = Some r /\
    (dim = 0%Z ->
     PhotonMapper.kdtree_get_pt m idx dim =
       Some (glm.x (PhotonInfo.position r))) /\
    (dim = 1%Z ->
     PhotonMapper.kdtree_get_pt m idx dim =
       Some (glm.y (PhotonInfo.position r))) /\
    (dim <> 0%Z -> dim <> 1%Z ->
     PhotonMapper.kdtree_get_pt m idx dim =
       Some (glm.z (PhotonInfo.position r))).
Proof.
  intros Hlt. destruct (record_at_index m idx Hlt) as [r Hr].
  exists r. split; [exact Hr|].
  unfold PhotonMapper.kdtree_get_pt. rewrite Hr.
  repeat split.
  - intros ->. reflexivity.
  - intros ->. reflexivity.
  - intros H0 H1.
    destruct (Z.eqb_spec dim 0); [contradiction|].
    destruct (Z.eqb_spec dim 1); [contradiction|]. reflexivity.
Qed.

Lemma kdtree_get_pt_total_on_valid_index_witness :
  2 < PhotonMapper.kdtree_get_point_count sample.mapper /\
  PhotonMapper.kdtree_get_pt sample.mapper 2 (-7) = Some (f32_of_Z 0) /\
  PhotonMapper.kdtree_get_pt sample.mapper 2 1 = Some (f32_of_Z 2).
Proof.
  assert (Hlt : 2 < PhotonMapper.kdtree_get_point_count sample.mapper)
    by (vm_compute; lia).
  split; [exact Hlt|]. split.
  - destruct (kdtree_get_pt_total_on_valid_index sample.mapper 2 (-7) Hlt)
      as (r & Hr & _ & _ & Hz).
    rewrite Hz by lia. injection Hr as <-. reflexivity.
  - destruct (kdtree_get_pt_total_on_valid_index sample.mapper 2 1 Hlt)
      as (r & Hr & _ & Hy & _).
    rewrite Hy by reflexivity. injection Hr as <-. reflexivity.
Defined.

(** ** The order on binary32 *)

Section FloatOrder.
Implicit Types x y : float.

Lemma SFcompare_antisym x y : SFcompare y x = CompOpp <$> SFcompare x y.
Proof.
  destruct x as [sx|sx| |sx mx ex], y as [sy|sy| |sy my ey]; simpl;
    try reflexivity;
    try (destruct sx; reflexivity); try (destruct sy; reflexivity);
    try (destruct sx, sy; reflexivity).
  destruct sx, sy; simpl; try reflexivity;
    rewrite (Z.compare_antisym ex ey); destruct (ex ?= ey)%Z; simpl;
    try reflexivity;
    pose proof (Pos.compare_cont_antisym mx my Eq) as E; simpl in E;
    rewrite <- E; reflexivity.
Qed.

Lemma fleb_not_gt x y : fleb x y = true -> fltb y x = false.
Proof.
  unfold fleb, fltb, SFleb, SFltb. rewrite (SFcompare_antisym x y).
  destruct (SFcompare x y) as [[]|]; simpl; congruence.
Qed.

Lemma not_fleb_not_lt x y : fleb x y = false -> fltb x y = false.
Proof.
  unfold fleb, fltb, SFleb, SFltb.
  destruct (SFcompare x y) as [[]|]; simpl; congruence.
Qed.

Lemma SFcompare_defined x y :
  is_nan x = false -> is_nan y = false -> is_Some (SFcompare x y).
Proof.
  destruct x as [sx|sx| |sx mx ex], y as [sy|sy| |sy my ey]; simpl;
    intros; try discriminate; eauto.
Qed.

Lemma not_gt_fleb x y :
  is_nan x = false -> is_nan y = false -> fltb y x = false -> fleb x y = true.
Proof.
  intros Hx Hy. unfold fleb, fltb, SFleb, SFltb.
  rewrite (SFcompare_antisym x y).
  destruct (SFcompare_defined x y Hx Hy) as [c ->].
  destruct c; simpl; congruence.
Qed.
Lemma fltb_fleb_trans x y (z : float) :
  fltb x y = true -> fleb y z = true -> fltb x z = true.
Proof.
  unfold fltb, fleb, SFltb, SFleb.
  destruct x as [[]|[]| |[] mx ex], y as [[]|[]| |[] my ey],
    z as [[]|[]| |[] mz ez]; simpl; try discriminate; try reflexivity;
    change (Pos.compare_cont Eq) with Pos.compare;
    destruct (Z.compare_spec ex ey), (Z.compare_spec ey ez),
      (Z.compare_spec ex ez); try lia; simpl;
      try discriminate; try reflexivity; subst;
    destruct (Pos.compare_spec mx my), (Pos.compare_spec my mz),
      (Pos.compare_spec mx mz); simpl; try discriminate; try reflexivity;
      lia.
Qed.
End FloatOrder.

(** ** The nearest-neighbour search *)

Section Sorting.
Implicit Types (e : nat * float) (l : list (nat * float)).

Lemma length_insert_by_distance e l :
  length (nanoflann.insert_by_distance e l) = S (length l).
Proof.
  induction l as [|e' l IH]; simpl; [reflexivity|].
  destruct (fleb e.2 e'.2); simpl; [reflexivity|]. by rewrite IH.
Qed.

Lemma length_sort_by_distance l :
  length (nanoflann.sort_by_distance l) = length l.
Proof.
  induction l as [|e l IH]; simpl; [reflexivity|].
  by rewrite length_insert_by_distance, IH.
Qed.

Lemma elem_of_insert_by_distance a e l :
  a ∈ nanoflann.insert_by_distance e l <-> a = e \/ a ∈ l.
Proof.
  induction l as [|e' l IH]; simpl.
  - rewrite list_elem_of_singleton, elem_of_nil. tauto.
  - destruct (fleb e.2 e'.2).
    + rewrite !elem_of_cons. tauto.
    + rewrite !elem_of_cons, IH. tauto.
Qed.

Lemma elem_of_sort_by_distance a l :
  a ∈ nanoflann.sort_by_distance l <-> a ∈ l.
Proof.
  induction l as [|e l IH]; simpl; [reflexivity|].
  rewrite elem_of_insert_by_distance, IH, elem_of_cons. tauto.
Qed.

Lemma insert_by_distance_Permutation e l :
  nanoflann.insert_by_distance e l ≡ₚ e :: l.
Proof.
  induction l as [|e' l IH]; simpl; [reflexivity|].
  destruct (fleb e.2 e'.2); [reflexivity|].
  rewrite IH. apply Permutation_swap.
Qed.

Lemma sort_by_distance_Permutation l : nanoflann.sort_by_distance l ≡ₚ l.
Proof.
  induction l as [|e l IH]; simpl; [reflexivity|].
  by rewrite insert_by_distance_Permutation, IH.
Qed.

(** Insertion keeps every pair in order, not only neighbours: an entry
    that is inserted in front of [e'] is not above anything that [e'] is
    not above. *)
Lemma StronglySorted_insert_by_distance e l :
  StronglySorted (by_distance never_decreases) l ->
  StronglySorted (by_distance never_decreases)
    (nanoflann.insert_by_distance e l).
Proof.
  induction 1 as [|e' l Hsorted IH Hall]; simpl.
  - repeat constructor.
  - destruct (fleb e.2 e'.2) eqn:Hle.
    + constructor; [by constructor|].
      constructor; [by apply fleb_not_gt|].
      eapply Forall_impl; [exact Hall|]. intros b Hb.
      unfold by_distance, never_decreases in *.
      destruct (fltb b.2 e.2) eqn:Hlt; [|reflexivity].
      by rewrite (fltb_fleb_trans _ _ _ Hlt Hle) in Hb.
    + constructor; [exact IH|].
      apply Forall_forall. intros b [->|Hb]%elem_of_insert_by_distance.
      * by apply not_fleb_not_lt.
      * by eapply Forall_forall in Hall.
Qed.

Lemma StronglySorted_sort_by_distance l :
  StronglySorted (by_distance never_decreases) (nanoflann.sort_by_distance l).
Proof.
  induction l as [|e l IH]; simpl; [constructor|].
  by apply StronglySorted_insert_by_distance.
Qed.
End Sorting.

Lemma StronglySorted_at_most_of_never_decreases (l : list float) :
  Forall (fun d => is_nan d = false) l ->
  StronglySorted never_decreases l -> StronglySorted at_most l.
Proof.
  intros Hnan Hsorted. induction Hsorted as [|a l Hsorted IH Hall].
  - constructor.
  - apply Forall_cons in Hnan as [Ha Hl]. constructor; [by apply IH|].
    apply Forall_forall. intros b Hb.
    apply not_gt_fleb; [exact Ha| |].
    + by eapply Forall_forall in Hl.
    + by eapply Forall_forall in Hall.
Qed.

Lemma fst_omap_total {A B} (f : A -> option B) (l : list A) :
  Forall (fun a => is_Some (f a)) l ->
  (omap (fun a => b ← f a; Some (a, b)) l).*1 = l.
Proof.
  induction 1 as [|a l [b Hb] _ IH]; simpl; [reflexivity|].
  rewrite Hb. simpl. f_equal. exact IH.
Qed.

Lemma length_omap_total {A B} (f : A -> option B) (l : list A) :
  Forall (fun a => is_Some (f a)) l -> length (omap f l) = length l.
Proof.
  induction 1 as [|a l [b Hb] _ IH]; simpl; [reflexivity|].
  rewrite Hb. simpl. f_equal. exact IH.
Qed.

Section Search.
Variable m : PhotonMapper.t.
Variable point : glm.vec3.

Lemma kdtree_distance_defined (i : nat) :
  i < PhotonMapper.kdtree_get_point_count m ->
  is_Some (PhotonMapper.kdtree_distance m (PhotonMap.query_of point) i 3).
Proof.
  intros Hlt. destruct (record_at_index m i Hlt) as [r Hr].
  unfold PhotonMapper.kdtree_distance, PhotonMap.query_of. simpl.
  rewrite Hr. simpl. eauto.
Qed.

Lemma length_distances :
  length (nanoflann.distances (nanoflann.buildIndex m) m
            (PhotonMap.query_of point)) =
    PhotonMapper.kdtree_get_point_count m.
Proof.
  unfold nanoflann.distances, nanoflann.buildIndex. simpl.
  rewrite length_omap_total, length_seq; [reflexivity|].
  apply Forall_forall. intros i [_ Hi]%elem_of_seq.
  destruct (kdtree_distance_defined i) as [d Hd]; [lia|].
  rewrite Hd. simpl. eauto.
Qed.

Lemma fst_distances :
  (nanoflann.distances (nanoflann.buildIndex m) m
     (PhotonMap.query_of point)).*1 =
    seq 0 (PhotonMapper.kdtree_get_point_count m).
Proof.
  unfold nanoflann.distances, nanoflann.buildIndex. simpl.
  apply (fst_omap_total
           (fun i => PhotonMapper.kdtree_distance m
                       (PhotonMap.query_of point) i 3)).
  apply Forall_forall. intros i [_ Hi]%elem_of_seq.
  apply kdtree_distance_defined. lia.
Qed.

Lemma distances_complete (i : nat) (d : float) :
  i < PhotonMapper.kdtree_get_point_count m ->
  PhotonMapper.kdtree_distance m (PhotonMap.query_of point) i 3 = Some d ->
  (i, d) ∈ nanoflann.distances (nanoflann.buildIndex m) m
             (PhotonMap.query_of point).
Proof.
  intros Hi Hd. unfold nanoflann.distances, nanoflann.buildIndex. simpl.
  apply list_elem_of_omap. exists i. split.
  - apply elem_of_seq. lia.
  - by rewrite Hd.
Qed.

Lemma elem_of_distances (index : nanoflann.KDTreeSingleIndexAdaptor)
    (i : nat) (d : float) :
  (i, d) ∈ nanoflann.distances index m (PhotonMap.query_of point) ->
  PhotonMapper.kdtree_distance m (PhotonMap.query_of point) i 3 = Some d.
Proof.
  unfold nanoflann.distances. rewrite list_elem_of_omap.
  intros (j & _ & Hj). simpl in Hj.
  destruct (PhotonMapper.kdtree_distance m (PhotonMap.query_of point) j 3)
    as [d'|] eqn:Hd; simpl in Hj; [|discriminate].
  injection Hj as -> ->. exact Hd.
Qed.

Lemma elem_of_knnSearch (index : nanoflann.KDTreeSingleIndexAdaptor)
    (k i : nat) (d : float) :
  (i, d) ∈ nanoflann.knnSearch index m (PhotonMap.query_of point) k ->
  PhotonMapper.kdtree_distance m (PhotonMap.query_of point) i 3 = Some d.
Proof.
  unfold nanoflann.knnSearch. intros Hin%subseteq_take.
  rewrite elem_of_sort_by_distance in Hin. by apply elem_of_distances in Hin.
Qed.
End Search.

Lemma findNNearestPoints_unfold (point : glm.vec3) (k : nat)
    (pm : PhotonMap.t) :
  PhotonMap.findNNearestPoints point k pm =
    (let found := nanoflann.knnSearch (PhotonMap.photon_map pm)
                    (PhotonMap.p pm) (PhotonMap.query_of point) k in
     (found.*1, found.*2), pm).
Proof. reflexivity. Qed.

Lemma length_knnSearch (m : PhotonMapper.t) (point : glm.vec3) (k : nat) :
  length (nanoflann.knnSearch (nanoflann.buildIndex m) m
            (PhotonMap.query_of point) k) =
    k `min` PhotonMapper.kdtree_get_point_count m.
Proof.
  unfold nanoflann.knnSearch.
  by rewrite length_take, length_sort_by_distance, length_distances.
Qed.

(** A single record queried at its own position comes back at distance 0. *)
Example knn_round_trip :
  (PhotonMap.findNNearestPoints (sample.v3 3 4 0) 1
     (PhotonMap.new (PhotonMapper.Make 1 3 [sample.record0] []))).1 =
    ([0], [f32_zero]).
Proof. reflexivity. Qed.

(** Records at equal distance come back in index order. *)
Example knn_ties_in_index_order :
  (PhotonMap.findNNearestPoints sample.origin 5
     (PhotonMap.new
        (PhotonMapper.Make 3 3
           [sample.record2; sample.record1; sample.record2] []))).1.1 =
    [1; 0; 2].
Proof. reflexivity. Qed.

(** C1: on the photon map built over a mapper with [n] records, the search
    for point [p] returns [min k n] indices and as many squared distances.
    The indices are distinct, and each distance is the one
    [kdtree_distance] gives from [(p.x, p.y, p.z)] to the record at the
    index in the same place. Along the result no distance is below an
    earlier one, whatever the two places; when no returned distance is NaN
    this is the order [<=] between every earlier and every later distance.
    No record left out is nearer than a returned one. *)
Theorem findNNearestPoints_count_and_order
    (m : PhotonMapper.t) (point : glm.vec3) (k : nat) :
  let n := PhotonMapper.kdtree_get_point_count m in
  let query := [glm.x point; glm.y point; glm.z point] in
  let result :=
    (PhotonMap.findNNearestPoints point k (PhotonMap.new m)).1 in
  let ret_index := result.1 in
  let out_dist_sqr := result.2 in
  length ret_index = k `min` n /\
  length out_dist_sqr = k `min` n /\
  NoDup ret_index /\
  (forall (j i : nat) (d : float),
      ret_index !! j = Some i -> out_dist_sqr !! j = Some d ->
      PhotonMapper.kdtree_distance m query i 3 = Some d) /\
  StronglySorted never_decreases out_dist_sqr /\
  (Forall (fun d => is_nan d = false) out_dist_sqr ->
   StronglySorted at_most out_dist_sqr) /\
  (forall (i : nat) (d' d : float),
      i < n -> i ∉ ret_index ->
      PhotonMapper.kdtree_distance m query i 3 = Some d' ->
      d ∈ out_dist_sqr -> never_decreases d d').
Proof.
  intros n query result ret_index out_dist_sqr.
  subst ret_index out_dist_sqr result query.
  rewrite findNNearestPoints_unfold. simpl.
  change [glm.x point; glm.y point; glm.z point]
    with (PhotonMap.query_of point).
  unfold nanoflann.knnSearch.
  set (sorted := nanoflann.sort_by_distance _).
  assert (Hlen : length (take k sorted) = k `min` n).
  { apply (length_knnSearch m point k). }
  assert (Hsorted : StronglySorted (by_distance never_decreases) sorted)
    by apply StronglySorted_sort_by_distance.
  assert (Hsplit : StronglySorted (by_distance never_decreases)
                     (take k sorted ++ drop k sorted))
    by (by rewrite take_drop).
  assert (Hdist : StronglySorted never_decreases (take k sorted).*2).
  { apply (StronglySorted_fmap snd (by_distance never_decreases)); [done|].
    by apply StronglySorted_app_1_l in Hsplit. }
  assert (Hperm : sorted.*1 ≡ₚ seq 0 n).
  { unfold sorted. rewrite sort_by_distance_Permutation.
    by rewrite fst_distances. }
  split; [by rewrite length_fmap|]. split; [by rewrite length_fmap|].
  split; [|split; [|split; [|split]]].
  - rewrite fmap_take. apply (sublist_NoDup _ (sorted.*1)).
    + rewrite Hperm. apply NoDup_seq.
    + apply sublist_take.
  - intros j i d. rewrite !list_lookup_fmap.
    destruct (take k sorted !! j) as [[i' d']|] eqn:Hj; simpl;
      [|discriminate].
    intros [= ->] [= ->].
    apply (elem_of_knnSearch m point (nanoflann.buildIndex m) k).
    by apply list_elem_of_lookup_2 in Hj.
  - exact Hdist.
  - intros Hnan. by apply StronglySorted_at_most_of_never_decreases.
  - intros i d' d Hi Hout Hd' [[i0 d0] [-> Hin]]%list_elem_of_fmap.
    assert (Hall : (i, d') ∈ take k sorted ++ drop k sorted).
    { rewrite take_drop. apply elem_of_sort_by_distance.
      by apply distances_complete. }
    apply elem_of_app in Hall as [Htake|Hdrop].
    + destruct Hout. apply list_elem_of_fmap. by exists (i, d').
    + apply (StronglySorted_app_1_elem_of _ _ _ _ _ Hsplit Hin Hdrop).
Qed.

Lemma findNNearestPoints_count_and_order_witness :
  (PhotonMap.findNNearestPoints (sample.v3 0 3 0) 2
     (PhotonMap.new sample.mapper)).1 =
    ([2; 0], [f32_of_Z 1; f32_of_Z 10]) /\
  StronglySorted at_most
    (PhotonMap.findNNearestPoints (sample.v3 0 3 0) 2
       (PhotonMap.new sample.mapper)).1.2 /\
  never_decreases (f32_of_Z 10) (f32_of_Z 10).
Proof.
  destruct (findNNearestPoints_count_and_order sample.mapper
              (sample.v3 0 3 0) 2)
    as (_ & _ & _ & _ & _ & Hle & Hnear).
  split; [vm_compute; reflexivity|]. split.
  - apply Hle. vm_compute. repeat constructor.
  - apply (Hnear 1 (f32_of_Z 10) (f32_of_Z 10)).
    + vm_compute. lia.
    + vm_compute. intros Hin.
      apply elem_of_cons in Hin as [[=]|Hin].
      by apply list_elem_of_singleton in Hin.
    + reflexivity.
    + vm_compute. apply list_elem_of_further, list_elem_of_here.
Defined.

(** ** The gather *)

Section GatherFacts.
Variable gather_count : nat.
Variable min_area : float.
Implicit Types (pm : PhotonMap.t) (point normal : glm.vec3).

Lemma gatherPhotons_unfold point normal pm :
  PhotonMap.gatherPhotons gather_count min_area point normal pm =
    (match PhotonMap.qualifying (PhotonMap.p pm) normal
             (PhotonMap.findNNearestPoints point gather_count pm).1.1 with
     | [] => glmops.zero
     | energies =>
         glmops.div_scalar (foldr glmops.add glmops.zero energies)
           (PhotonMap.gather_area min_area
              (PhotonMap.findNNearestPoints point gather_count pm).1.2)
     end, pm).
Proof.
  unfold PhotonMap.gatherPhotons, PhotonMap.bind.
  rewrite findNNearestPoints_unfold. simpl.
  destruct (PhotonMap.qualifying _ _ _); reflexivity.
Qed.

Lemma qualifying_none (mapper : PhotonMapper.t) normal
    (ret_index : list nat) :
  (forall (i : nat) (d : glm.vec3),
      i ∈ ret_index -> PhotonMapper.getDirection mapper i = Some d ->
      PhotonMap.arrives_from_front normal d = false) ->
  PhotonMap.qualifying mapper normal ret_index = [].
Proof.
  unfold PhotonMap.qualifying.
  induction ret_index as [|i ret_index IH]; intros Hnone; [reflexivity|].
  simpl. destruct (PhotonMapper.getDirection mapper i) as [d|] eqn:Hd; simpl.
  - rewrite (Hnone i d) by (done || apply list_elem_of_here).
    apply IH. intros j dj Hj. apply Hnone. by apply list_elem_of_further.
  - apply IH. intros j dj Hj. apply Hnone. by apply list_elem_of_further.
Qed.

Lemma findNNearestPoints_empty (m : PhotonMapper.t) point (k : nat) :
  PhotonMapper.kdtree_get_point_count m = 0 ->
  (PhotonMap.findNNearestPoints point k (PhotonMap.new m)).1.1 = [].
Proof.
  intros Hempty. apply nil_length_inv.
  rewrite findNNearestPoints_unfold. simpl.
  rewrite length_fmap, length_knnSearch, Hempty. lia.
Qed.
End GatherFacts.

(** C4: when the index holds no record, or when no photon the search
    returns passes the hemisphere test against the normal, the gather
    returns black, [(0,0,0)]. The gather is a total function: it returns in
    every case. *)
Theorem gatherPhotons_black
    (gather_count : nat) (min_area : float)
    (m : PhotonMapper.t) (point normal : glm.vec3) :
  PhotonMapper.kdtree_get_point_count m = 0 \/
  (forall (i : nat) (d : glm.vec3),
      i ∈ (PhotonMap.findNNearestPoints point gather_count
             (PhotonMap.new m)).1.1 ->
      PhotonMapper.getDirection m i = Some d ->
      PhotonMap.arrives_from_front normal d = false) ->
  (PhotonMap.gatherPhotons gather_count min_area point normal
     (PhotonMap.new m)).1 = glmops.zero.
Proof.
  intros Hcase. rewrite gatherPhotons_unfold.
  cbn [fst PhotonMap.p PhotonMap.new].
  rewrite qualifying_none; [reflexivity|].
  destruct Hcase as [Hempty|Hnone].
  - rewrite (findNNearestPoints_empty m point gather_count Hempty).
    intros i d Hin. by apply elem_of_nil in Hin.
  - exact Hnone.
Qed.

Lemma gatherPhotons_black_witness :
  (PhotonMap.gatherPhotons 5 f32_one sample.origin sample.up
     (PhotonMap.new (PhotonMapper.Make 0 3 [] []))).1 = glmops.zero /\
  (PhotonMap.gatherPhotons 1 f32_one sample.origin sample.up
     (PhotonMap.new sample.mapper)).1 = glmops.zero.
Proof.
  split.
  - apply gatherPhotons_black. left. reflexivity.
  - apply gatherPhotons_black. right. intros i d Hin Hd.
    vm_compute in Hin. apply list_elem_of_singleton in Hin. subst i.
    vm_compute in Hd. injection Hd as <-. vm_compute. reflexivity.
Defined.


(** A call that writes, made through [p], does change the photon map. *)
Lemma through_p_store (r : PhotonInfo.t) (pm : PhotonMap.t) :
  PhotonMapper.kdtree_get_point_count
    (PhotonMap.p (stepwise.through_p (stepwise.store r) pm).2) =
    S (PhotonMapper.kdtree_get_point_count (PhotonMap.p pm)).
Proof.
  unfold PhotonMapper.kdtree_get_point_count. simpl.
  rewrite length_app. simpl. lia.
Qed.





(** ** The photon *)

Lemma f32_one_is_one : f32_one = SFone f32_prec f32_emax.
Proof. reflexivity. Qed.

(** C7: a photon made by [Photon(origin, direction, depth)] is white,
    [(1,1,1)], and not absorbed. *)
Theorem Photon_new_white_unabsorbed (o d : glm.vec3) (depth : nat) :
  Photon.color (Photon.new o d depth) = glm.Vec3 f32_one f32_one f32_one /\
  Photon.absorbed (Photon.new o d depth) = false.
Proof. split; reflexivity. Qed.

(** ** The mapping pass *)

Section Allocation.
Import allocation.
Implicit Types (ls : list Q) (w t : Q) (N : nat).


Lemma total_intensity_nonneg ls :
  Forall (Qle 0) ls -> (0 <= total_intensity ls)%Q.
Proof.
  induction 1 as [|w ls Hw _ IH]; simpl; [apply Qle_refl|].
  change 0%Q with (0 + 0)%Q. by apply Qplus_le_compat.
Qed.

















End Allocation.



Section EmissionFacts.
Variable sample_direction : nat -> nat -> glm.vec3.
Implicit Types (self : PhotonMapper.t) (scene : model.Scene).




End EmissionFacts.



(** * Further properties *)

(** ** More on binary32 arithmetic *)

Section FloatArith.
Implicit Types a b d x y : float.

Lemma binary_round_aux_opp (s : bool) (m e : Z) (l : location) :
  binary_round_aux f32_prec f32_emax (negb s) m e l =
    SFopp (binary_round_aux f32_prec f32_emax s m e l).
Proof.
  unfold binary_round_aux.
  destruct (shr_fexp f32_prec f32_emax m e l) as [mrs' e'].
  destruct (shr_fexp f32_prec f32_emax _ e' loc_Exact) as [mrs'' e''].
  destruct (shr_m mrs''); [reflexivity| |reflexivity].
  destruct (e'' <=? f32_emax - f32_prec)%Z; reflexivity.
Qed.

Lemma binary_round_aux_sign (m e : Z) (l : location) :
  sign_clear_or_nan (binary_round_aux f32_prec f32_emax false m e l) = true.
Proof.
  unfold binary_round_aux.
  destruct (shr_fexp f32_prec f32_emax m e l) as [mrs' e'].
  destruct (shr_fexp f32_prec f32_emax _ e' loc_Exact) as [mrs'' e''].
  destruct (shr_m mrs''); [reflexivity| |reflexivity].
  destruct (e'' <=? f32_emax - f32_prec)%Z; reflexivity.
Qed.

Lemma binary_round_opp (s : bool) (m : positive) (e : Z) :
  binary_round f32_prec f32_emax (negb s) m e =
    SFopp (binary_round f32_prec f32_emax s m e).
Proof.
  unfold binary_round.
  destruct (shl_align m e _) as [mz ez]. apply binary_round_aux_opp.
Qed.

Lemma binary_round_sign (m : positive) (e : Z) :
  sign_clear_or_nan (binary_round f32_prec f32_emax false m e) = true.
Proof.
  unfold binary_round.
  destruct (shl_align m e _) as [mz ez]. apply binary_round_aux_sign.
Qed.

Lemma fadd_comm x y : fadd x y = fadd y x.
Proof.
  unfold fadd.
  destruct x as [sx|sx| |sx mx ex], y as [sy|sy| |sy my ey]; simpl;
    try reflexivity; try (destruct sx, sy; reflexivity).
  by rewrite (Z.min_comm ey ex), Z.add_comm.
Qed.

Lemma fsub_diag x : is_finite x = true -> fsub x x = f32_zero.
Proof.
  unfold fsub. destruct x as [s|s| |s m e]; simpl; try discriminate; intros _.
  - by destruct s.
  - by rewrite Z.sub_diag.
Qed.

Lemma fsub_swap a b :
  fsub b a = fopp (fsub a b) \/
  (fsub a b = f32_zero /\ fsub b a = f32_zero).
Proof.
  unfold fsub, fopp.
  destruct a as [sa|sa| |sa ma ea], b as [sb|sb| |sb mb eb]; simpl;
    try (left; reflexivity);
    try (destruct sa, sb; (left; reflexivity) || (right; split; reflexivity)).
  rewrite (Z.min_comm eb ea).
  set (A := cond_Zopp sa _). set (B := cond_Zopp sb _).
  replace (B - A)%Z with (- (A - B))%Z by lia.
  destruct (A - B)%Z as [|d|d]; simpl.
  - right. by split.
  - left. apply (binary_round_opp false).
  - left. rewrite (binary_round_opp false).
    by destruct (binary_round _ _ _ _ _) as [[]|[]| |[] ? ?].
Qed.

Lemma fmul_opp_opp d : fmul (fopp d) (fopp d) = fmul d d.
Proof. unfold fmul, fopp. by destruct d as [[]|[]| |[] m e]. Qed.

Lemma square_swap a b :
  fmul (fsub b a) (fsub b a) = fmul (fsub a b) (fsub a b).
Proof.
  destruct (fsub_swap a b) as [->|[-> ->]]; [apply fmul_opp_opp|reflexivity].
Qed.

Lemma square_sign d : sign_clear_or_nan (fmul d d) = true.
Proof.
  unfold fmul. destruct d as [[]|[]| |s m e]; simpl; try reflexivity.
  replace (xorb s s) with false by (by destruct s).
  apply binary_round_aux_sign.
Qed.

Lemma fadd_sign x y :
  sign_clear_or_nan x = true -> sign_clear_or_nan y = true ->
  sign_clear_or_nan (fadd x y) = true.
Proof.
  unfold fadd.
  destruct x as [sx|sx| |sx mx ex], y as [sy|sy| |sy my ey]; simpl;
    try reflexivity; destruct sx, sy; try discriminate; try reflexivity.
  intros _ _. simpl.
  destruct (shl_align mx ex _) as [mx' ex'], (shl_align my ey _) as [my' ey'].
  simpl. apply binary_round_sign.
Qed.

Lemma sign_clear_not_below_zero d :
  sign_clear_or_nan d = true -> fltb d f32_zero = false.
Proof. by destruct d as [[]|[]| |[] m e]. Qed.

Lemma fdiv_by_zero a d : is_zero d = true -> is_finite (fdiv a d) = false.
Proof.
  destruct d as [s| | |]; try discriminate. intros _.
  by destruct a as [sa|sa| |sa ma ea].
Qed.
End FloatArith.

Lemma fsub_diag_not_finite (x : float) :
  is_finite x = false -> fsub x x = S754_nan.
Proof. by destruct x as [[]|[]| |[] m e]. Qed.

Lemma fadd_nan_r (x : float) : fadd x S754_nan = S754_nan.
Proof. by destruct x. Qed.

(** ** More on the photon mapper as a dataset *)

Section MapperDataset.
Implicit Types (m : PhotonMapper.t) (r : PhotonInfo.t) (idx size : nat).

Lemma kdtree_distance_at_record m r idx size (p0 p1 p2 : float) :
  PhotonMapper.gathered_photons m !! idx = Some r ->
  PhotonMapper.kdtree_distance m [p0; p1; p2] idx size =
    Some (fadd (fadd (fmul (fsub p0 (glm.x (PhotonInfo.position r)))
                           (fsub p0 (glm.x (PhotonInfo.position r))))
                     (fmul (fsub p1 (glm.y (PhotonInfo.position r)))
                           (fsub p1 (glm.y (PhotonInfo.position r)))))
               (fmul (fsub p2 (glm.z (PhotonInfo.position r)))
                     (fsub p2 (glm.z (PhotonInfo.position r))))).
Proof. intros Hr. unfold PhotonMapper.kdtree_distance. by rewrite Hr. Qed.

Lemma kdtree_distance_is_sum_of_squares m (p : list float) idx size
    (d : float) :
  PhotonMapper.kdtree_distance m p idx size = Some d ->
  exists d0 d1 d2 : float,
    d = fadd (fadd (fmul d0 d0) (fmul d1 d1)) (fmul d2 d2).
Proof.
  unfold PhotonMapper.kdtree_distance.
  destruct (p !! 0) as [a0|]; [|discriminate].
  destruct (PhotonMapper.gathered_photons m !! idx) as [r|]; [|discriminate].
  destruct (p !! 1) as [a1|]; [|discriminate].
  destruct (p !! 2) as [a2|]; [|discriminate].
  simpl. intros [= <-]. eauto.
Qed.
End MapperDataset.

(** X1: [PhotonMapper::kdtree_distance] reads [p1[0..2]] and the record at
    [idx_p2] and nothing else: it is defined exactly when the query array
    has three elements and the index is below the point count. *)
Theorem kdtree_distance_defined_iff
    (m : PhotonMapper.t) (p : list float) (idx size : nat) :
  is_Some (PhotonMapper.kdtree_distance m p idx size) <->
  3 <= length p /\ idx < PhotonMapper.kdtree_get_point_count m.
Proof.
  unfold PhotonMapper.kdtree_distance, PhotonMapper.kdtree_get_point_count.
  rewrite <- (lookup_lt_is_Some (PhotonMapper.gathered_photons m) idx).
  destruct p as [|a0 [|a1 [|a2 p]]]; simpl;
    destruct (PhotonMapper.gathered_photons m !! idx) as [r|]; simpl;
    split; intros H;
    first [ by apply is_Some_None in H
          | by (destruct H as [Hlen _]; lia)
          | by (destruct H as [_ H]; apply is_Some_None in H)
          | by (split; [lia|eauto])
          | by eauto ].
Qed.

Lemma kdtree_distance_defined_iff_witness :
  is_Some (PhotonMapper.kdtree_distance sample.mapper
             [f32_zero; f32_zero; f32_zero; f32_one] 2 7) /\
  ~ is_Some (PhotonMapper.kdtree_distance sample.mapper
               [f32_zero; f32_zero] 2 7) /\
  ~ is_Some (PhotonMapper.kdtree_distance sample.mapper
               [f32_zero; f32_zero; f32_zero] 3 7).
Proof.
  split; [|split].
  - apply kdtree_distance_defined_iff. vm_compute. lia.
  - intros H. apply kdtree_distance_defined_iff in H. vm_compute in H. lia.
  - intros H. apply kdtree_distance_defined_iff in H. vm_compute in H. lia.
Defined.

(** X2: [getDirection], [getEnergy] and [kdtree_get_pt] (for every [dim])
    are defined on the same indices, those below
    [kdtree_get_point_count]: an index that is valid for the tree is valid
    for reading the photon's direction and energy, and no other is. *)
Theorem record_accessors_domain (m : PhotonMapper.t) (idx : nat) (dim : Z) :
  (is_Some (PhotonMapper.getDirection m idx) <->
   idx < PhotonMapper.kdtree_get_point_count m) /\
  (is_Some (PhotonMapper.getEnergy m idx) <->
   idx < PhotonMapper.kdtree_get_point_count m) /\
  (is_Some (PhotonMapper.kdtree_get_pt m idx dim) <->
   idx < PhotonMapper.kdtree_get_point_count m).
Proof.
  unfold PhotonMapper.getDirection, PhotonMapper.getEnergy,
    PhotonMapper.kdtree_get_pt, PhotonMapper.kdtree_get_point_count.
  rewrite <- (lookup_lt_is_Some (PhotonMapper.gathered_photons m) idx).
  destruct (PhotonMapper.gathered_photons m !! idx) as [r|];
    destruct (dim =? 0)%Z, (dim =? 1)%Z; simpl;
    repeat split; intros H; by (apply is_Some_None in H) || eauto.
Qed.

Lemma record_accessors_domain_witness :
  is_Some (PhotonMapper.getEnergy sample.mapper 2) /\
  ~ is_Some (PhotonMapper.getDirection sample.mapper 3).
Proof.
  destruct (record_accessors_domain sample.mapper 2 0) as (_ & He & _).
  destruct (record_accessors_domain sample.mapper 3 0) as (Hd & _ & _).
  split.
  - apply He. vm_compute. lia.
  - intros H. apply Hd in H. vm_compute in H. lia.
Defined.

(** X3: a squared distance returned by [kdtree_distance] is never
    negative: it is NaN or has a clear sign bit ([+0], positive, or
    [+infinity]), so it never compares below zero. *)
Theorem kdtree_distance_never_negative
    (m : PhotonMapper.t) (p : list float) (idx size : nat) (d : float) :
  PhotonMapper.kdtree_distance m p idx size = Some d ->
  sign_clear_or_nan d = true /\ fltb d f32_zero = false.
Proof.
  intros Hd.
  destruct (kdtree_distance_is_sum_of_squares m p idx size d Hd)
    as (d0 & d1 & d2 & ->).
  assert (Hsign : sign_clear_or_nan
                    (fadd (fadd (fmul d0 d0) (fmul d1 d1)) (fmul d2 d2))
                  = true).
  { repeat apply fadd_sign; apply square_sign. }
  split; [exact Hsign|by apply sign_clear_not_below_zero].
Qed.

Lemma kdtree_distance_never_negative_witness :
  fltb (f32_of_Z 25) f32_zero = false.
Proof.
  apply (kdtree_distance_never_negative sample.mapper
           [f32_zero; f32_zero; f32_zero] 0 3 (f32_of_Z 25)).
  reflexivity.
Defined.

(** X4: queried at the position of a stored record itself,
    [kdtree_distance] returns [+0] when the three coordinates are finite,
    and NaN as soon as one of them is infinite or NaN. *)
Theorem kdtree_distance_to_itself
    (m : PhotonMapper.t) (r : PhotonInfo.t) (idx size : nat) :
  PhotonMapper.gathered_photons m !! idx = Some r ->
  PhotonMapper.kdtree_distance m
    [glm.x (PhotonInfo.position r); glm.y (PhotonInfo.position r);
     glm.z (PhotonInfo.position r)] idx size =
    Some (if finite_vec3 (PhotonInfo.position r) then f32_zero
          else S754_nan).
Proof.
  intros Hr. rewrite (kdtree_distance_at_record m r idx size _ _ _ Hr).
  unfold finite_vec3. f_equal.
  destruct (is_finite (glm.x (PhotonInfo.position r))) eqn:Hx,
    (is_finite (glm.y (PhotonInfo.position r))) eqn:Hy,
    (is_finite (glm.z (PhotonInfo.position r))) eqn:Hz;
    rewrite ?(fsub_diag _ Hx), ?(fsub_diag _ Hy), ?(fsub_diag _ Hz),
      ?(fsub_diag_not_finite _ Hx), ?(fsub_diag_not_finite _ Hy),
      ?(fsub_diag_not_finite _ Hz); reflexivity.
Qed.

Lemma kdtree_distance_to_itself_witness :
  PhotonMapper.kdtree_distance sample.mapper
    [f32_of_Z 3; f32_of_Z 4; f32_of_Z 0] 0 3 = Some f32_zero.
Proof.
  apply (kdtree_distance_to_itself sample.mapper sample.record0 0 3).
  reflexivity.
Defined.

(** X5: a NaN among the three query coordinates makes the squared distance
    to every stored record NaN. *)
Theorem kdtree_distance_nan_query
    (m : PhotonMapper.t) (p0 p1 p2 : float) (idx size : nat) :
  idx < PhotonMapper.kdtree_get_point_count m ->
  is_nan p0 || is_nan p1 || is_nan p2 = true ->
  PhotonMapper.kdtree_distance m [p0; p1; p2] idx size = Some S754_nan.
Proof.
  intros Hlt Hnan. destruct (record_at_index m idx Hlt) as [r Hr].
  rewrite (kdtree_distance_at_record m r idx size _ _ _ Hr). f_equal.
  destruct p0 as [s0|s0| |s0 m0 e0]; try (simpl in Hnan);
    [| |reflexivity|];
    (destruct p1 as [s1|s1| |s1 m1 e1]; try (simpl in Hnan);
     [| |by rewrite fadd_nan_r|]);
    (destruct p2 as [s2|s2| |s2 m2 e2]; try discriminate;
     by rewrite fadd_nan_r).
Qed.

Lemma kdtree_distance_nan_query_witness :
  PhotonMapper.kdtree_distance sample.mapper
    [f32_one; S754_nan; f32_one] 1 3 = Some S754_nan.
Proof.
  apply kdtree_distance_nan_query; [vm_compute; lia|reflexivity].
Defined.

(** X6: the squared distance is symmetric. From the position of record
    [rj] to record [ri], and from the position of [ri] to [rj] (the records
    may sit in one mapper or in two), [kdtree_distance] returns NaN both
    ways, or the same number both ways, an infinity or a zero included.
    Which NaN bit pattern the code returns is outside this model, which
    has a single NaN. *)
Theorem kdtree_distance_symmetric
    (m1 m2 : PhotonMapper.t) (ri rj : PhotonInfo.t) (i j size1 size2 : nat) :
  PhotonMapper.gathered_photons m1 !! i = Some ri ->
  PhotonMapper.gathered_photons m2 !! j = Some rj ->
  exists d1 d2 : float,
    PhotonMapper.kdtree_distance m1
      [glm.x (PhotonInfo.position rj); glm.y (PhotonInfo.position rj);
       glm.z (PhotonInfo.position rj)] i size1 = Some d1 /\
    PhotonMapper.kdtree_distance m2
      [glm.x (PhotonInfo.position ri); glm.y (PhotonInfo.position ri);
       glm.z (PhotonInfo.position ri)] j size2 = Some d2 /\
    ((is_nan d1 = true /\ is_nan d2 = true) \/
     (is_nan d1 = false /\ is_nan d2 = false /\ d1 = d2)).
Proof.
  intros Hi Hj.
  rewrite (kdtree_distance_at_record m1 ri i size1 _ _ _ Hi),
    (kdtree_distance_at_record m2 rj j size2 _ _ _ Hj).
  rewrite (square_swap (glm.x (PhotonInfo.position ri))),
    (square_swap (glm.y (PhotonInfo.position ri))),
    (square_swap (glm.z (PhotonInfo.position ri))).
  eexists _, _. split; [reflexivity|]. split; [reflexivity|].
  destruct (is_nan _); [left|right]; repeat split.
Qed.

Lemma kdtree_distance_symmetric_witness :
  PhotonMapper.kdtree_distance sample.mapper
    [f32_of_Z 0; f32_of_Z 2; f32_of_Z 0] 0 3 =
  PhotonMapper.kdtree_distance sample.mapper
    [f32_of_Z 3; f32_of_Z 4; f32_of_Z 0] 2 3 /\
  PhotonMapper.kdtree_distance sample.mapper
    [f32_of_Z 0; f32_of_Z 2; f32_of_Z 0] 0 3 = Some (f32_of_Z 13).
Proof.
  destruct (kdtree_distance_symmetric sample.mapper sample.mapper
              sample.record0 sample.record2 0 2 3 3 eq_refl eq_refl)
    as (d1 & d2 & H1 & H2 & [[Hnan _]|(_ & _ & Heq)]).
  - exfalso. revert Hnan. injection H1 as <-. vm_compute. discriminate.
  - split; [|reflexivity].
    etransitivity; [exact H1|]. rewrite Heq. symmetry. exact H2.
Defined.

(** ** The point cloud over any scalar type *)

(** X7: for every scalar type [T], [PointCloud<T>::kdtree_distance] on a
    query triple is the sum of the squared differences to the three
    coordinates [kdtree_get_pt] returns for dimensions 0, 1 and 2, with
    the operations of [T]; where [kdtree_get_pt] is out of range, so is
    [kdtree_distance]. *)
Theorem PointCloud_distance_from_coordinates
    (T : Type) (sc : Scalar T) (pc : PointCloud.t T) (p0 p1 p2 : T)
    (idx size : nat) :
  PointCloud.kdtree_distance pc [p0; p1; p2] idx size =
    (x ← PointCloud.kdtree_get_pt pc idx 0;
     y ← PointCloud.kdtree_get_pt pc idx 1;
     z ← PointCloud.kdtree_get_pt pc idx 2;
     Some (s_add (s_add (s_mul (s_sub p0 x) (s_sub p0 x))
                        (s_mul (s_sub p1 y) (s_sub p1 y)))
                 (s_mul (s_sub p2 z) (s_sub p2 z)))).
Proof.
  unfold PointCloud.kdtree_distance, PointCloud.kdtree_get_pt. simpl.
  by destruct (PointCloud.pts pc !! idx).
Qed.

(** X8: a cloud whose points are built by [Point(glm::vec3)] from a list
    of vectors gives the vectors back: as many points as vectors, and
    [kdtree_get_pt] returns the converted x, y or z component of the
    vector at that index (z for every [dim] other than 0 and 1). *)
Theorem PointCloud_of_vec3_round_trip
    (T : Type) (sc : Scalar T) (vs : list glm.vec3) (idx : nat) (dim : Z) :
  let pc := PointCloud.Make (PointCloud.Point_of_vec3 <$> vs) in
  PointCloud.kdtree_get_point_count pc = length vs /\
  PointCloud.kdtree_get_pt pc idx dim =
    (v ← vs !! idx;
     Some (s_of_float (if (dim =? 0)%Z then glm.x v
                       else if (dim =? 1)%Z then glm.y v else glm.z v))).
Proof.
  simpl. split.
  - unfold PointCloud.kdtree_get_point_count. simpl. apply length_fmap.
  - unfold PointCloud.kdtree_get_pt. simpl. rewrite list_lookup_fmap.
    by destruct (vs !! idx), (dim =? 0)%Z, (dim =? 1)%Z.
Qed.

(** X9: for every scalar type, the reads of a point cloud are defined
    exactly in range: [kdtree_get_pt] when the index is below the point
    count, [kdtree_distance] when moreover the query array has three
    elements. *)
Theorem PointCloud_defined_iff
    (T : Type) (sc : Scalar T) (pc : PointCloud.t T) (p : list T)
    (idx size : nat) (dim : Z) :
  (is_Some (PointCloud.kdtree_get_pt pc idx dim) <->
   idx < PointCloud.kdtree_get_point_count pc) /\
  (is_Some (PointCloud.kdtree_distance pc p idx size) <->
   3 <= length p /\ idx < PointCloud.kdtree_get_point_count pc).
Proof.
  unfold PointCloud.kdtree_get_pt, PointCloud.kdtree_distance,
    PointCloud.kdtree_get_point_count.
  rewrite <- (lookup_lt_is_Some (PointCloud.pts pc) idx). split.
  - destruct (PointCloud.pts pc !! idx) as [q|];
      destruct (dim =? 0)%Z, (dim =? 1)%Z; simpl;
      split; intros H; by (apply is_Some_None in H) || eauto.
  - destruct p as [|a0 [|a1 [|a2 p]]]; simpl;
      destruct (PointCloud.pts pc !! idx) as [q|]; simpl;
      split; intros H;
      first [ by apply is_Some_None in H
            | by (destruct H as [Hlen _]; lia)
            | by (destruct H as [_ H]; apply is_Some_None in H)
            | by (split; [lia|eauto])
            | by eauto ].
Qed.

Lemma PointCloud_defined_iff_witness :
  is_Some (PointCloud.kdtree_get_pt sample.cloud 2 5) /\
  ~ is_Some (PointCloud.kdtree_distance sample.cloud
               [f32_zero; f32_zero; f32_zero] 3 3).
Proof.
  destruct (PointCloud_defined_iff float _ sample.cloud [] 2 3 5)
    as (Hpt & _).
  destruct (PointCloud_defined_iff float _ sample.cloud
              [f32_zero; f32_zero; f32_zero] 3 3 0) as (_ & Hdist).
  split.
  - apply Hpt. vm_compute. lia.
  - intros H. apply Hdist in H. vm_compute in H. lia.
Defined.

(** ** The triangle *)

(** X10: [checkIntersection] accepts only strictly positive, finite [y]
    and [z]: a NaN, an infinity, a zero of either sign or a negative value
    in one of them is rejected. The [x] component is not looked at. *)
Theorem checkIntersection_positive_finite
    (self : Triangle.t) (intersect : glm.vec3) :
  Triangle.checkIntersection self intersect = true ->
  positive_finite (glm.y intersect) = true /\
  positive_finite (glm.z intersect) = true.
Proof.
  unfold Triangle.checkIntersection.
  destruct intersect as [x y z]. simpl.
  destruct y as [[]|[]| |[] my ey]; try discriminate;
    destruct z as [[]|[]| |[] mz ez]; try discriminate; by intros _.
Qed.

Lemma checkIntersection_positive_finite_witness :
  positive_finite sample_triangle.quarter = true /\
  positive_finite sample_triangle.half = true.
Proof.
  apply (checkIntersection_positive_finite sample_triangle.right
           (glm.Vec3 S754_nan sample_triangle.quarter sample_triangle.half)).
  reflexivity.
Defined.

(** X11: [checkIntersection] treats the two barycentric coordinates alike:
    exchanging [y] and [z] (and changing [x] at will) does not change the
    answer. *)
Theorem checkIntersection_symmetric
    (self other : Triangle.t) (x x' y z : float) :
  Triangle.checkIntersection self (glm.Vec3 x y z) =
    Triangle.checkIntersection other (glm.Vec3 x' z y).
Proof.
  unfold Triangle.checkIntersection. simpl.
  rewrite (fadd_comm z y).
  by destruct (fltb f32_zero y), (fltb f32_zero z).
Qed.

(** X12: the normal is kept consistent with the vertices: it is
    [normalize (cross (e2, e1))] after the constructor and after
    [ComputeNormal] from any state, [ComputeNormal] changes nothing but
    [normal], and on a triangle whose normal is already consistent it
    changes nothing at all. *)
Theorem ComputeNormal_restores_normal
    (cross : glm.vec3 -> glm.vec3 -> glm.vec3)
    (normalize : glm.vec3 -> glm.vec3)
    (fresh self : Triangle.t) (v0 v1 v2 color : glm.vec3) :
  let consistent (t : Triangle.t) :=
    Triangle.normal t = normalize (cross (Triangle.e2 t) (Triangle.e1 t)) in
  let made := Triangle.new cross normalize fresh v0 v1 v2 color in
  let recomputed := Triangle.ComputeNormal cross normalize self in
  consistent made /\
  (Triangle.v0 made, Triangle.v1 made, Triangle.v2 made, Triangle.color made)
    = (v0, v1, v2, color) /\
  consistent recomputed /\
  (Triangle.v0 recomputed, Triangle.v1 recomputed, Triangle.v2 recomputed)
    = (Triangle.v0 self, Triangle.v1 self, Triangle.v2 self) /\
  (Triangle.color recomputed, Triangle.uv0 recomputed,
   Triangle.uv1 recomputed, Triangle.uv2 recomputed)
    = (Triangle.color self, Triangle.uv0 self, Triangle.uv1 self,
       Triangle.uv2 self) /\
  (consistent self -> recomputed = self).
Proof.
  simpl. repeat split.
  intros Hnormal. destruct self as [a b c n col t0 t1 t2].
  unfold Triangle.ComputeNormal, Triangle.e1, Triangle.e2 in *.
  simpl in *. by rewrite <- Hnormal.
Qed.

Lemma ComputeNormal_restores_normal_witness :
  Triangle.ComputeNormal sample_triangle.cross sample_triangle.normalize
    sample_triangle.right = sample_triangle.right.
Proof.
  apply (ComputeNormal_restores_normal sample_triangle.cross
           sample_triangle.normalize sample_triangle.blank
           sample_triangle.right glmops.zero glmops.zero glmops.zero
           glmops.zero).
  reflexivity.
Defined.

(** X13: [calculateBarycentricCoordinates] divides by the triangle's area
    without a guard: when the area computed from the vertices is zero (a
    degenerate triangle), none of the three coordinates it returns is a
    finite number; each is an infinity or NaN. *)
Theorem barycentric_of_zero_area
    (cross : glm.vec3 -> glm.vec3 -> glm.vec3)
    (length : glm.vec3 -> float)
    (self : Triangle.t) (intersection_point : glm.vec3) :
  is_zero (length (cross (glmext.sub (Triangle.v0 self) (Triangle.v1 self))
                         (glmext.sub (Triangle.v0 self) (Triangle.v2 self))))
    = true ->
  let b := Triangle.calculateBarycentricCoordinates cross length self
             intersection_point in
  is_finite (glm.x b) = false /\
  is_finite (glm.y b) = false /\
  is_finite (glm.z b) = false.
Proof.
  intros Harea. unfold Triangle.calculateBarycentricCoordinates. simpl.
  repeat split; by apply fdiv_by_zero.
Qed.

Lemma barycentric_of_zero_area_witness :
  is_finite
    (glm.x (Triangle.calculateBarycentricCoordinates sample_triangle.cross
              sample_triangle.length sample_triangle.flat
              (sample.v3 0 1 0))) = false.
Proof.
  apply (barycentric_of_zero_area sample_triangle.cross
           sample_triangle.length sample_triangle.flat (sample.v3 0 1 0)).
  reflexivity.
Defined.

(** X14: an edge between two coinciding vertices is the zero vector when
    the vertex is finite: [e1()] is [(+0,+0,+0)] when [v1 = v0], and
    [e2()] when [v2 = v0]. *)
Theorem edges_of_coinciding_vertices (self : Triangle.t) :
  finite_vec3 (Triangle.v0 self) = true ->
  (Triangle.v1 self = Triangle.v0 self -> Triangle.e1 self = glmops.zero) /\
  (Triangle.v2 self = Triangle.v0 self -> Triangle.e2 self = glmops.zero).
Proof.
  unfold finite_vec3, Triangle.e1, Triangle.e2, glmext.sub, glmops.zero.
  intros [[Hx Hy]%andb_prop Hz]%andb_prop.
  split; intros ->; by rewrite !fsub_diag.
Qed.

Lemma edges_of_coinciding_vertices_witness :
  Triangle.e1 (Triangle.new sample_triangle.cross sample_triangle.normalize
                 sample_triangle.blank (sample.v3 1 2 3) (sample.v3 1 2 3)
                 (sample.v3 0 2 0) (sample.v3 1 1 1)) = glmops.zero.
Proof.
  apply edges_of_coinciding_vertices; reflexivity.
Defined.
